(** * Telegram two-party relay webhook ([app.py]): model and properties

    The development embeds the module-level start-up code and the Flask view
    [webhook_handler] of [app.py].  Values that arrive in a request are Python
    objects produced by the JSON decoder; the provider API behind
    [requests.post] is an arbitrary deterministic environment; the module
    globals and the list of outbound calls form the state threaded through
    the handler. *)

From Stdlib Require Import ZArith Ascii String SpecFloat.
From stdpp Require Import gmap strings list fin_maps.

Local Open Scope string_scope.
Local Open Scope Z_scope.
Local Set Warnings "-register-all".

(** ** Python values decoded from JSON *)

(** [json.loads] yields [None], [bool], [int], [float], [str], [list] and
    [dict] with string keys.  A [dict] is a finite map: a repeated key in the
    text has already been resolved by the decoder.  A [float] is an IEEE
    value, kept as its sign, mantissa and exponent. *)
Inductive json :=
| JNull
| JBool (b : bool)
| JInt (z : Z)
| JFloat (f : spec_float)
| JStr (s : string)
| JArr (l : list json)
| JObj (m : gmap string json).

(** Python truth value, as tested by [if not message]. *)
Definition truthy (v : json) : bool :=
  match v with
  | JNull => false
  | JBool b => b
  | JInt z => negb (z =? 0)
  | JFloat (S754_zero _) => false
  | JFloat _ => true
  | JStr s => negb (String.eqb s "")
  | JArr l => match l with [] => false | _ :: _ => true end
  | JObj m => negb (bool_decide (size m = 0%nat))
  end.

(** [v is None]. *)
Definition is_None (v : json) : bool :=
  match v with JNull => true | _ => false end.

(** [list] and [dict] have no hash; every other decoded value has one. *)
Definition hashable (v : json) : bool :=
  match v with JArr _ | JObj _ => false | _ => true end.

(** The integer a float is equal to, when it is equal to one. *)
Definition float_as_integer (f : spec_float) : option Z :=
  match f with
  | S754_zero _ => Some 0
  | S754_finite s m e =>
      let v := if s then Z.neg m else Z.pos m in
      if 0 <=? e then Some (v * 2 ^ e)
      else if Z.pos m mod 2 ^ (- e) =? 0 then Some (v / 2 ^ (- e)) else None
  | S754_infinity _ | S754_nan => None
  end.

(** The integer [z] with [v == z] in Python, if there is one: [True == 1],
    [False == 0], [111.0 == 111]; equal numbers also hash alike, so this is
    what set membership among integers sees. *)
Definition as_integer (v : json) : option Z :=
  match v with
  | JBool true => Some 1
  | JBool false => Some 0
  | JInt z => Some z
  | JFloat f => float_as_integer f
  | JNull | JStr _ | JArr _ | JObj _ => None
  end.

(** [n == v] for an [int] n. *)
Definition int_eq (n : Z) (v : json) : bool :=
  match as_integer v with Some z => n =? z | None => false end.

(** ** Exceptions and results *)

Inductive pyexn :=
| AttributeError    (* [.get] on a value that is not a dict *)
| TypeError         (* unhashable value used as a set element *)
| BadRequest        (* raised by [request.get_json] on an undecodable body *)
| RequestException. (* anything [requests.post] raises *)

Inductive outcome (A : Type) :=
| Returned (a : A)
| Raised (e : pyexn).
Arguments Returned {A} a.
Arguments Raised {A} e.

(** ** Module globals, outbound calls, and the handler's state *)

Record config := {
  BOT_TOKEN : string;
  allowed_ids : gset Z;
  WEBHOOK_URL : option string;
  USE_COPY : bool;
  REPLY_UNAUTHORIZED : bool
}.

Definition API_BASE (g : config) : string :=
  "https://api.telegram.org/bot" ++ BOT_TOKEN g.

(** One [requests.post(url, json=..., timeout=...)]. *)
Record call := {
  url : string;
  json_arg : list (string * json);
  timeout : Z
}.

(** What [requests.post] gives back: a response object, or an exception. *)
Record response := { ok : bool; status_code : Z; text : string }.

Inductive post_result :=
| Answers (r : response)
| Throws.

(** The globals of the module and the outbound calls made so far, oldest
    first. *)
Record world := {
  globals : config;
  outbox : list call
}.

(** The value returned to Flask. *)
Record Response := { status : Z }.

(** The incoming request, as far as the view looks at it: the result of
    [request.get_json(force=True)]. *)
Record Request := { get_json : outcome json }.

(** ** A state and exception monad for the view *)

Definition M (A : Type) : Type := world -> outcome A * world.

Definition ret {A} (a : A) : M A := fun w => (Returned a, w).

Definition bind {A B} (m : M A) (f : A -> M B) : M B :=
  fun w =>
    match m w with
    | (Returned a, w') => f a w'
    | (Raised e, w') => (Raised e, w')
    end.

Declare Scope py_scope.
Delimit Scope py_scope with py.
Notation "x ← y ; z" := (bind y (fun x => z))
  (at level 20, y at level 100, z at level 200, only parsing) : py_scope.
Local Open Scope py_scope.

Definition raise {A} (e : pyexn) : M A := fun w => (Raised e, w).

(** [try: body  except Exception: handler]. *)
Definition try_except {A} (body : M A) (handler : pyexn -> M A) : M A :=
  fun w =>
    match body w with
    | (Returned a, w') => (Returned a, w')
    | (Raised e, w') => handler e w'
    end.

(** Reading a module global. *)
Definition global {A} (name : config -> A) : M A :=
  fun w => (Returned (name (globals w)), w).

(** [pass] *)
Definition pass : M unit := ret tt.

(** ** Python operations used by the view *)

(** [d.get(key, default)]; [d.get(key)] is [d.get(key, None)]. *)
Definition dict_get (d : json) (key : string) (fallback : json) : M json :=
  match d with
  | JObj m => ret (default fallback (m !! key))
  | _ => raise AttributeError
  end.

(** [v not in s] for a set [s] of ints. *)
Definition not_in (v : json) (s : gset Z) : M bool :=
  if hashable v then
    ret (match as_integer v with
          | Some z => bool_decide (z ∉ s)
          | None => true
          end)
  else raise TypeError.

(** [s - {v}] for a set [s] of ints. *)
Definition minus_singleton (s : gset Z) (v : json) : M (gset Z) :=
  if hashable v then
    ret (match as_integer v with
          | Some z => s ∖ {[ z ]}
          | None => s
          end)
  else raise TypeError.

Section Handler.

(** The provider API: the outcome of a call may depend on the calls made
    before it. *)
Variable network : list call -> call -> post_result.

Definition requests_post (u : string) (body : list (string * json))
    (t : Z) : M response :=
  fun w =>
    let c := {| url := u; json_arg := body; timeout := t |} in
    let w' := {| globals := globals w; outbox := outbox w ++ [c] |} in
    match network (outbox w) c with
    | Answers r => (Returned r, w')
    | Throws => (Raised RequestException, w')
    end.

(** [try: requests.post(f"{API_BASE}/sendMessage", json={"chat_id":
    sender_id, "text": text}, timeout=5)  except Exception: pass] *)
Definition notify (sender_id : json) (msg : string) : M unit :=
  try_except
    (base ← global API_BASE;
     _ ← requests_post (base ++ "/sendMessage")
           [("chat_id", sender_id); ("text", JStr msg)] 5;
     ret tt)
    (fun _ => pass).

(** Lines 110-147: the outer [try] around the dispatch. *)
Definition dispatch (recipient_id : Z) (sender_id chat_id message_id : json)
    : M unit :=
  try_except
    (use_copy ← global USE_COPY;
     let method : string := if use_copy then "copyMessage" else "forwardMessage" in
     let payload : list (string * json) :=
                   [("chat_id", JInt recipient_id);
                     ("from_chat_id", chat_id);
                     ("message_id", message_id)] in
     base ← global API_BASE;
     resp ← requests_post (base ++ "/" ++ method) payload 8;
     if negb (ok resp) then
       notify sender_id "Failed to deliver the message to the other user."
     else pass)
    (fun _ =>
       notify sender_id
         "An internal error occurred while forwarding your message.").

(** Lines 98-107 of the view: the recipient, or [None] where the view
    returns early without one. *)
Definition pick_recipient (sender_id : json) : M (option Z) :=
  allowed ← global allowed_ids;
  difference ← minus_singleton allowed sender_id;
  let recipients := elements difference in
  match recipients with
  | [] => ret None
  | recipient_id :: _ =>
      if int_eq recipient_id sender_id then ret None
      else ret (Some recipient_id)
  end.

(** Lines 84-149 of the view: authorization, recipient resolution and
    dispatch, once the three identifiers have been read. *)
Definition relay (sender_id chat_id message_id : json) : M Response :=
  allowed ← global allowed_ids;
  unauthorized ← not_in sender_id allowed;
  if unauthorized then
    reply ← global REPLY_UNAUTHORIZED;
    _ ← (if reply
         then notify sender_id "You are not authorized to use this bot."
         else pass);
    ret {| status := 200 |}
  else
  picked ← pick_recipient sender_id;
  match picked with
  | None => ret {| status := 200 |}
  | Some recipient_id =>
    _ ← dispatch recipient_id sender_id chat_id message_id;
    ret {| status := 200 |}
  end.

(** The view registered at [/<BOT_TOKEN>] (lines 58-82, continued by
    [relay]).  Log calls are left out: they touch neither the globals nor
    the provider API. *)
Definition webhook_handler (request : Request) : M Response :=
  match get_json request with
  | Raised _ => ret {| status := 400 |}
  | Returned payload =>
    message ← dict_get payload "message" JNull;
    if negb (truthy message) then ret {| status := 200 |} else
    from_user ← dict_get message "from" (JObj ∅);
    sender_id ← dict_get from_user "id" JNull;
    chat ← dict_get message "chat" (JObj ∅);
    chat_id ← dict_get chat "id" JNull;
    message_id ← dict_get message "message_id" JNull;
    if is_None sender_id || is_None message_id || is_None chat_id
    then ret {| status := 200 |}
    else relay sender_id chat_id message_id
  end.

End Handler.

(** What the caller of the webhook sees: Flask answers 500 when an exception
    leaves the view. *)
Definition http_status (o : outcome Response) : Z :=
  match o with
  | Returned r => status r
  | Raised _ => 500
  end.

(** ** Start-up: the module-level code (lines 30-47) *)

Inductive boot :=
| Serving (g : config)
| SystemExit (msg : string).

(** [not s] for the result of [os.environ.get]: unset or empty. *)
Definition unset (v : option string) : bool :=
  match v with
  | None => true
  | Some s => String.eqb s ""
  end.

(** [os.environ.get(key, default) != "0"]. *)
Definition flag (environ : gmap string string) (key : string) : bool :=
  negb (String.eqb (default "1" (environ !! key)) "0").

Section Startup.

(** Python's [int] on a string; [None] stands for [ValueError]. *)
Variable int : string -> option Z.

Definition load_config (environ : gmap string string) : boot :=
  let bot_token := environ !! "BOT_TOKEN" in
  let USER_A := environ !! "USER_A_ID" in
  let USER_B := environ !! "USER_B_ID" in
  let webhook_url := environ !! "WEBHOOK_URL" in
  let use_copy := flag environ "USE_COPY" in
  let reply_unauthorized := flag environ "REPLY_UNAUTHORIZED" in
  if unset bot_token || unset USER_A || unset USER_B then
    SystemExit
      "Missing required environment variables (BOT_TOKEN, USER_A_ID, USER_B_ID)."
  else
    match int (default "" USER_A), int (default "" USER_B) with
    | Some a, Some b =>
        Serving {| BOT_TOKEN := default "" bot_token;
                   allowed_ids := {[ a; b ]};
                   WEBHOOK_URL := webhook_url;
                   USE_COPY := use_copy;
                   REPLY_UNAUTHORIZED := reply_unauthorized |}
    | _, _ => SystemExit "USER IDs must be integers."
    end.

End Startup.

(** The plain decimal fragment of Python's [int]: an optional sign, then one
    or more ASCII digits.  (Python also accepts surrounding blanks, single
    underscores between digits and other decimal digits; [load_config] is
    stated for any [int].) *)
Fixpoint digits (s : string) (acc : Z) : option Z :=
  match s with
  | EmptyString => Some acc
  | String c rest =>
      let n := Z.of_nat (Ascii.nat_of_ascii c) in
      if (48 <=? n) && (n <=? 57) then digits rest (10 * acc + (n - 48))
      else None
  end.

Definition decimal_int (s : string) : option Z :=
  match s with
  | EmptyString => None
  | String c rest =>
      if Ascii.eqb c "-"%char then
        match rest with
        | EmptyString => None
        | _ => option_map Z.opp (digits rest 0)
        end
      else if Ascii.eqb c "+"%char then
        match rest with
        | EmptyString => None
        | _ => digits rest 0
        end
      else digits s 0
  end.

(** ** Reading an update *)

(** [path v [k1; ..; kn]] is the value found by following the keys through
    nested dicts, when every step lands in a dict that has the key. *)
Fixpoint path (v : json) (keys : list string) : option json :=
  match keys with
  | [] => Some v
  | k :: keys' =>
      match v with
      | JObj m =>
          match m !! k with
          | Some v' => path v' keys'
          | None => None
          end
      | _ => None
      end
  end.

(** Running the view on a decoded body. *)
Definition handle (network : list call -> call -> post_result)
    (payload : json) : M Response :=
  webhook_handler network {| get_json := Returned payload |}.

(** The update carries the three identifiers the view reads, none of them
    [None]: [message.from.id], [message.chat.id] and [message.message_id]. *)
Definition complete (payload sender_id chat_id message_id : json) : Prop :=
  path payload ["message"; "from"; "id"] = Some sender_id /\
  path payload ["message"; "chat"; "id"] = Some chat_id /\
  path payload ["message"; "message_id"] = Some message_id /\
  is_None sender_id = false /\
  is_None chat_id = false /\
  is_None message_id = false.

(** The member of [{a, b}] that is not [s]. *)
Definition other (a b s : Z) : Z := if decide (s = a) then b else a.

(** ** Outbound calls, as the properties name them *)

Definition sendMessage (g : config) (chat_id : json) (msg : string) : call :=
  {| url := API_BASE g ++ "/sendMessage";
     json_arg := [("chat_id", chat_id); ("text", JStr msg)];
     timeout := 5 |}.

Definition relayed (g : config) (recipient_id : Z) (chat_id message_id : json)
    : call :=
  {| url := API_BASE g ++ "/"
            ++ (if USE_COPY g then "copyMessage" else "forwardMessage");
     json_arg := [("chat_id", JInt recipient_id);
                  ("from_chat_id", chat_id);
                  ("message_id", message_id)];
     timeout := 8 |}.

(** The notice that follows a dispatch, by what the provider did with it. *)
Definition notices (g : config) (sender_id : json) (r : post_result)
    : list call :=
  match r with
  | Answers resp =>
      if ok resp then []
      else [sendMessage g sender_id
              "Failed to deliver the message to the other user."]
  | Throws =>
      [sendMessage g sender_id
         "An internal error occurred while forwarding your message."]
  end.

(** The world after the calls [cs] have been made. *)
Definition sent (w : world) (cs : list call) : world :=
  {| globals := globals w; outbox := outbox w ++ cs |}.

(** A computation that leaves the module globals as they were. *)
Definition keeps_globals {A} (m : M A) : Prop :=
  forall w, globals (snd (m w)) = globals w.

(** ** Sample data *)

Module Sample.

Definition cfg : config :=
  {| BOT_TOKEN := "123:abc";
     allowed_ids := {[ 111; 222 ]};
     WEBHOOK_URL := None;
     USE_COPY := true;
     REPLY_UNAUTHORIZED := true |}.

Definition fresh (g : config) : world := {| globals := g; outbox := [] |}.

(** A provider that accepts every call, one that rejects every call, and
    one that is unreachable. *)
Definition accepting : list call -> call -> post_result :=
  fun _ _ => Answers {| ok := true; status_code := 200; text := "" |}.
Definition rejecting : list call -> call -> post_result :=
  fun _ _ => Answers {| ok := false; status_code := 403; text := "" |}.
Definition unreachable : list call -> call -> post_result :=
  fun _ _ => Throws.

(** [{"message": {"from": {"id": s}, "chat": {"id": c}, "message_id": i}}] *)
Definition update (s c i : json) : json :=
  JObj {[ "message" :=
    JObj (<[ "from" := JObj {[ "id" := s ]} ]>
         (<[ "chat" := JObj {[ "id" := c ]} ]>
          {[ "message_id" := i ]})) ]}.

(** A provider that rejects the relayed message and cannot be reached for
    the notice that follows. *)
Definition failing : list call -> call -> post_result :=
  fun _ c =>
    if timeout c =? 8
    then Answers {| ok := false; status_code := 400; text := "Bad Request" |}
    else Throws.

(** [{"message": {"from": {"id": 999}}}] *)
Definition stranger_without_chat : json :=
  JObj {[ "message" := JObj {[ "from" := JObj {[ "id" := JInt 999 ]} ]} ]}.

(** [{"message": {"from": null, "chat": {"id": 1}, "message_id": 2}}] *)
Definition null_sender : json :=
  JObj {[ "message" :=
    JObj (<[ "from" := JNull ]>
         (<[ "chat" := JObj {[ "id" := JInt 1 ]} ]>
          {[ "message_id" := JInt 2 ]})) ]}.

(** [BOT_TOKEN=123:abc USER_A_ID=5 USER_B_ID=5] *)
Definition same_ids : gmap string string :=
  <[ "BOT_TOKEN" := "123:abc" ]>
  (<[ "USER_A_ID" := "5" ]> {[ "USER_B_ID" := "5" ]}).

End Sample.

(** ** Webhook registration and the script entry point (lines 152-180) *)

Section Script.

(** Python's [int] on a string; [None] stands for [ValueError]. *)
Variable int : string -> option Z.

Variable network : list call -> call -> post_result.

(** [set_webhook()], lines 152-169.  Both branches on [resp.ok] only log. *)
Definition set_webhook : M unit :=
  webhook_url ← global WEBHOOK_URL;
  if unset webhook_url then ret tt
  else
    try_except
      (base ← global API_BASE;
       webhook_url ← global WEBHOOK_URL;
       resp ← requests_post network (base ++ "/setWebhook")
                [("url", JStr (default "" webhook_url))] 8;
       if ok resp then pass else pass)
      (fun _ => pass).

(** The [__main__] block, lines 172-180, up to the call of [app.run]: the
    result is the port handed to [app.run], or [None] when [int] raises
    [ValueError] on the value of [PORT] and the script dies. *)
Definition main (environ : gmap string string) : M (option Z) :=
  webhook_url ← global WEBHOOK_URL;
  _ ← (if negb (unset webhook_url) then set_webhook else pass);
  ret (int (default "8000" (environ !! "PORT"))).

End Script.

(** ** Shapes of updates *)

Definition is_dict (v : json) : bool :=
  match v with JObj _ => true | _ => false end.

(** Every value the view calls [.get] on is a dict: the payload, a truthy
    [message], and [from] and [chat] where the message has them. *)
Definition well_shaped (payload : json) : bool :=
  match payload with
  | JObj p =>
      let message := default JNull (p !! "message") in
      if truthy message then
        match message with
        | JObj m =>
            is_dict (default (JObj ∅) (m !! "from"))
            && is_dict (default (JObj ∅) (m !! "chat"))
        | _ => false
        end
      else true
  | _ => false
  end.

(** The registration call, and the calls [set_webhook] makes under the
    globals [g]. *)
Definition setWebhook (g : config) (target : string) : call :=
  {| url := API_BASE g ++ "/setWebhook";
     json_arg := [("url", JStr target)];
     timeout := 8 |}.

Definition webhook_calls (g : config) : list call :=
  match WEBHOOK_URL g with
  | Some target => if String.eqb target "" then [] else [setWebhook g target]
  | None => []
  end.

Module Fixture.

(** [BOT_TOKEN=123:abc USER_A_ID=111 USER_B_ID=222
    WEBHOOK_URL=https://relay.example/123:abc USE_COPY=0 PORT=x] *)
Definition env : gmap string string :=
  <[ "BOT_TOKEN" := "123:abc" ]>
  (<[ "USER_A_ID" := "111" ]>
  (<[ "USER_B_ID" := "222" ]>
  (<[ "WEBHOOK_URL" := "https://relay.example/123:abc" ]>
  (<[ "USE_COPY" := "0" ]> {[ "PORT" := "x" ]})))).

Definition served : config :=
  {| BOT_TOKEN := "123:abc";
     allowed_ids := {[ 111; 222 ]};
     WEBHOOK_URL := Some "https://relay.example/123:abc";
     USE_COPY := false;
     REPLY_UNAUTHORIZED := true |}.

(** A configuration whose two identities coincide. *)
Definition lonely : config :=
  {| BOT_TOKEN := "123:abc";
     allowed_ids := {[ 5 ]};
     WEBHOOK_URL := None;
     USE_COPY := true;
     REPLY_UNAUTHORIZED := true |}.

(** [{"message": {"chat": {"id": 1}, "message_id": 2}}] *)
Definition anonymous : json :=
  JObj {[ "message" :=
    JObj (<[ "chat" := JObj {[ "id" := JInt 1 ]} ]>
          {[ "message_id" := JInt 2 ]}) ]}.

End Fixture.

(** * Properties *)


(** Forward mode, and a provider that answers the relayed message with an
    error: the sender is told that delivery failed. *)
Example scenario_forward_rejected :
  handle Sample.rejecting (Sample.update (JInt 222) (JInt 222) (JInt 9))
    (Sample.fresh {| BOT_TOKEN := "123:abc";
                     allowed_ids := {[ 111; 222 ]};
                     WEBHOOK_URL := None;
                     USE_COPY := false;
                     REPLY_UNAUTHORIZED := true |})
  = (Returned {| status := 200 |},
     {| globals := {| BOT_TOKEN := "123:abc";
                      allowed_ids := {[ 111; 222 ]};
                      WEBHOOK_URL := None;
                      USE_COPY := false;
                      REPLY_UNAUTHORIZED := true |};
        outbox :=
          [ {| url := "https://api.telegram.org/bot123:abc/forwardMessage";
               json_arg := [("chat_id", JInt 111);
                            ("from_chat_id", JInt 222);
                            ("message_id", JInt 9)];
               timeout := 8 |};
            {| url := "https://api.telegram.org/bot123:abc/sendMessage";
               json_arg :=
                 [("chat_id", JInt 222);
                  ("text",
                   JStr "Failed to deliver the message to the other user.")];
               timeout := 5 |} ] |}).
Proof. vm_compute. reflexivity. Qed.

(** A provider that cannot be reached: the relaying call raises, the notice
    of an internal error is attempted and raises too, and the view still
    returns 200. *)
Example scenario_unreachable :
  handle Sample.unreachable (Sample.update (JInt 111) (JInt 111) (JInt 42))
    (Sample.fresh Sample.cfg)
  = (Returned {| status := 200 |},
     {| globals := Sample.cfg;
        outbox :=
          [ {| url := "https://api.telegram.org/bot123:abc/copyMessage";
               json_arg := [("chat_id", JInt 222);
                            ("from_chat_id", JInt 111);
                            ("message_id", JInt 42)];
               timeout := 8 |};
            {| url := "https://api.telegram.org/bot123:abc/sendMessage";
               json_arg :=
                 [("chat_id", JInt 111);
                  ("text",
                   JStr "An internal error occurred while forwarding your message.")];
               timeout := 5 |} ] |}).
Proof. vm_compute. reflexivity. Qed.

(** [111.0 == 111] and [True == 1] in Python, and neither a list nor a dict
    can be looked up in a set. *)
Example float_sender_is_member :
  as_integer (JFloat (S754_finite false 111 0)) = Some 111
  /\ as_integer (JFloat (S754_finite false 222 (-1))) = Some 111
  /\ as_integer (JFloat (S754_finite false 223 (-1))) = None
  /\ as_integer (JBool true) = Some 1.
Proof. repeat split; reflexivity. Qed.

Example list_sender_raises :
  handle Sample.accepting (Sample.update (JArr [JInt 1]) (JInt 1) (JInt 2))
    (Sample.fresh Sample.cfg)
  = (Raised TypeError, Sample.fresh Sample.cfg).
Proof. vm_compute. reflexivity. Qed.

(** ** The monad *)

Lemma sent_nil w : sent w [] = w.
Proof. unfold sent. rewrite app_nil_r. destruct w; reflexivity. Qed.

Lemma sent_sent w cs ds : sent (sent w cs) ds = sent w (cs ++ ds).
Proof. unfold sent. cbn. rewrite app_assoc. reflexivity. Qed.

Section Frame.

Variable network : list call -> call -> post_result.

Lemma keeps_ret {A} (a : A) : keeps_globals (ret a).
Proof. intros w. reflexivity. Qed.

Lemma keeps_raise {A} e : keeps_globals (@raise A e).
Proof. intros w. reflexivity. Qed.

Lemma keeps_global {A} (name : config -> A) : keeps_globals (global name).
Proof. intros w. reflexivity. Qed.

Lemma keeps_bind {A B} (m : M A) (f : A -> M B) :
  keeps_globals m -> (forall a, keeps_globals (f a)) ->
  keeps_globals (bind m f).
Proof.
  intros Hm Hf w. unfold bind. specialize (Hm w).
  destruct (m w) as [[a|e] w']; cbn in *.
  - rewrite Hf. exact Hm.
  - exact Hm.
Qed.

Lemma keeps_try {A} (m : M A) (h : pyexn -> M A) :
  keeps_globals m -> (forall e, keeps_globals (h e)) ->
  keeps_globals (try_except m h).
Proof.
  intros Hm Hh w. unfold try_except. specialize (Hm w).
  destruct (m w) as [[a|e] w']; cbn in *.
  - exact Hm.
  - rewrite Hh. exact Hm.
Qed.

Lemma keeps_post u body t : keeps_globals (requests_post network u body t).
Proof.
  intros w. unfold requests_post.
  destruct (network _ _); reflexivity.
Qed.

Lemma keeps_dict_get d key fallback : keeps_globals (dict_get d key fallback).
Proof. destruct d; first [apply keeps_ret | apply keeps_raise]. Qed.

Lemma keeps_not_in v s : keeps_globals (not_in v s).
Proof.
  unfold not_in. destruct (hashable v); [apply keeps_ret | apply keeps_raise].
Qed.

Lemma keeps_minus s v : keeps_globals (minus_singleton s v).
Proof.
  unfold minus_singleton.
  destruct (hashable v); [apply keeps_ret | apply keeps_raise].
Qed.

Lemma keeps_notify sender_id msg : keeps_globals (notify network sender_id msg).
Proof.
  unfold notify. apply keeps_try; [|intros; apply keeps_ret].
  apply keeps_bind; [apply keeps_global|intros base].
  apply keeps_bind; [apply keeps_post|intros; apply keeps_ret].
Qed.

Lemma keeps_dispatch r sender_id chat_id message_id :
  keeps_globals (dispatch network r sender_id chat_id message_id).
Proof.
  unfold dispatch. apply keeps_try; [|intros; apply keeps_notify].
  apply keeps_bind; [apply keeps_global|intros use_copy]. cbv zeta.
  apply keeps_bind; [apply keeps_global|intros base].
  apply keeps_bind; [apply keeps_post|intros resp].
  destruct (negb (ok resp)); [apply keeps_notify | apply keeps_ret].
Qed.

Lemma keeps_pick sender_id : keeps_globals (pick_recipient sender_id).
Proof.
  unfold pick_recipient.
  apply keeps_bind; [apply keeps_global|intros allowed].
  apply keeps_bind; [apply keeps_minus|intros difference]. cbv zeta.
  destruct (elements difference) as [|r rest]; [apply keeps_ret|].
  destruct (int_eq r sender_id); apply keeps_ret.
Qed.

Lemma keeps_relay sender_id chat_id message_id :
  keeps_globals (relay network sender_id chat_id message_id).
Proof.
  unfold relay.
  apply keeps_bind; [apply keeps_global|intros allowed].
  apply keeps_bind; [apply keeps_not_in|intros [|]].
  - apply keeps_bind; [apply keeps_global|intros reply].
    apply keeps_bind; [|intros; apply keeps_ret].
    destruct reply; [apply keeps_notify | apply keeps_ret].
  - apply keeps_bind; [apply keeps_pick|intros [r|]]; [|apply keeps_ret].
    apply keeps_bind; [apply keeps_dispatch|intros; apply keeps_ret].
Qed.

End Frame.

(** C9. Handling a request writes no module global: the allowed-identity set,
    the token and the mode toggles are the same after the view has run as
    before, whatever the request and whatever the provider answers. *)
Theorem handler_keeps_globals network request w :
  globals (snd (webhook_handler network request w)) = globals w.
Proof.
  revert w. change (keeps_globals (webhook_handler network request)).
  unfold webhook_handler.
  destruct (get_json request) as [payload|e]; [|apply keeps_ret].
  apply keeps_bind; [apply keeps_dict_get|intros message].
  destruct (negb (truthy message)); [apply keeps_ret|].
  apply keeps_bind; [apply keeps_dict_get|intros from_user].
  apply keeps_bind; [apply keeps_dict_get|intros sender_id].
  apply keeps_bind; [apply keeps_dict_get|intros chat].
  apply keeps_bind; [apply keeps_dict_get|intros chat_id].
  apply keeps_bind; [apply keeps_dict_get|intros message_id].
  destruct (_ || _); [apply keeps_ret | apply keeps_relay].
Qed.

(** ** Bodies that are not relayed *)

(** C7. A body that cannot be decoded is answered with 400 and no outbound
    call is made. *)
Theorem undecodable_body_rejected network e w :
  webhook_handler network {| get_json := Raised e |} w
  = (Returned {| status := 400 |}, w).
Proof. reflexivity. Qed.

(** C10. An update whose [message] is present but falsy is answered with 200
    and no outbound call is made. *)
Theorem falsy_message_ignored network (p : gmap string json) v w :
  p !! "message" = Some v ->
  truthy v = false ->
  handle network (JObj p) w = (Returned {| status := 200 |}, w).
Proof.
  intros Hp Hv. unfold handle, webhook_handler, bind, dict_get, ret.
  cbn [get_json]. rewrite Hp. cbn. rewrite Hv. reflexivity.
Qed.

Lemma falsy_message_ignored_witness :
  handle Sample.accepting (JObj {[ "message" := JObj ∅ ]})
         (Sample.fresh Sample.cfg)
  = (Returned {| status := 200 |}, Sample.fresh Sample.cfg).
Proof.
  apply (falsy_message_ignored Sample.accepting
           {[ "message" := JObj ∅ ]} (JObj ∅)); reflexivity.
Defined.

(** ** Reading the identifiers *)

Lemma path_cons_inv v k keys x :
  path v (k :: keys) = Some x ->
  exists m v', v = JObj m /\ m !! k = Some v' /\ path v' keys = Some x.
Proof.
  simpl. destruct v as [| | | | | |m]; try discriminate.
  destruct (m !! k) as [v'|] eqn:E; try discriminate.
  intros H. exists m, v'. auto.
Qed.

Lemma truthy_dict (m : gmap string json) k v :
  m !! k = Some v -> truthy (JObj m) = true.
Proof.
  intros H. simpl. rewrite bool_decide_eq_false_2; [reflexivity|].
  intros Hs. apply map_size_empty_iff in Hs. subst m.
  rewrite lookup_empty in H. discriminate.
Qed.

Lemma as_integer_hashable v z : as_integer v = Some z -> hashable v = true.
Proof. destruct v; simpl; try discriminate; reflexivity. Qed.

Lemma bind_get {B} (m : gmap string json) k fallback v (f : json -> M B) w :
  m !! k = Some v ->
  bind (dict_get (JObj m) k fallback) f w = f v w.
Proof. intros H. unfold bind, dict_get, ret. rewrite H. reflexivity. Qed.

Lemma bind_get_absent {B} (m : gmap string json) k fallback (f : json -> M B) w :
  m !! k = None ->
  bind (dict_get (JObj m) k fallback) f w = f fallback w.
Proof. intros H. unfold bind, dict_get, ret. rewrite H. reflexivity. Qed.

(** On a complete update the view reaches [relay] with the three
    identifiers. *)
Lemma handle_complete network payload sender_id chat_id message_id w :
  complete payload sender_id chat_id message_id ->
  handle network payload w = relay network sender_id chat_id message_id w.
Proof.
  intros (Hs & Hc & Hm & Ns & Nc & Nm).
  apply path_cons_inv in Hs as (p & mv & -> & Hp & Hs).
  apply path_cons_inv in Hs as (m & fv & -> & Hf & Hs).
  apply path_cons_inv in Hs as (f & sv & -> & Hi & Hs).
  simpl in Hs. injection Hs as ->.
  simpl in Hc. rewrite Hp in Hc.
  destruct (m !! "chat") as [cv|] eqn:Hch; try discriminate.
  destruct cv as [| | | | | |c]; try discriminate.
  destruct (c !! "id") as [cid|] eqn:Hci; try discriminate.
  injection Hc as ->.
  simpl in Hm. rewrite Hp in Hm.
  destruct (m !! "message_id") as [mid|] eqn:Hmi; try discriminate.
  injection Hm as ->.
  unfold handle, webhook_handler. cbn [get_json].
  rewrite (bind_get _ _ _ _ _ _ Hp). cbv beta.
  rewrite (truthy_dict _ _ _ Hf). cbn [negb].
  rewrite (bind_get _ _ _ _ _ _ Hf). cbv beta.
  rewrite (bind_get _ _ _ _ _ _ Hi). cbv beta.
  rewrite (bind_get _ _ _ _ _ _ Hch). cbv beta.
  rewrite (bind_get _ _ _ _ _ _ Hci). cbv beta.
  rewrite (bind_get _ _ _ _ _ _ Hmi). cbv beta.
  rewrite Ns, Nc, Nm. reflexivity.
Qed.

(** ** Authorization, recipient and dispatch *)

Lemma difference_other (a b s : Z) :
  a <> b -> s ∈ ({[ a; b ]} : gset Z) ->
  ({[ a; b ]} : gset Z) ∖ {[ s ]} = {[ other a b s ]}.
Proof.
  intros Hab Hs. apply set_eq. intros x.
  rewrite elem_of_difference, elem_of_union, !elem_of_singleton.
  rewrite elem_of_union, !elem_of_singleton in Hs.
  unfold other. destruct (decide (s = a)) as [->|Hsa].
  - split; [intros [[?|?] ?]; congruence | intros ->; split; [right|]; congruence].
  - destruct Hs as [? | ->]; [contradiction|].
    split; [intros [[?|?] ?]; congruence | intros ->; split; [left|]; congruence].
Qed.

Lemma other_member (a b s : Z) : other a b s ∈ ({[ a; b ]} : gset Z).
Proof.
  rewrite elem_of_union, !elem_of_singleton. unfold other.
  destruct (decide (s = a)); auto.
Qed.

Lemma other_differs (a b s : Z) :
  a <> b -> s ∈ ({[ a; b ]} : gset Z) -> other a b s <> s.
Proof.
  intros Hab Hs. rewrite elem_of_union, !elem_of_singleton in Hs.
  unfold other. destruct (decide (s = a)); destruct Hs; congruence.
Qed.

Lemma pick_recipient_run a b s sender_id w :
  allowed_ids (globals w) = {[ a; b ]} -> a <> b ->
  as_integer sender_id = Some s -> s ∈ ({[ a; b ]} : gset Z) ->
  pick_recipient sender_id w = (Returned (Some (other a b s)), w).
Proof.
  intros Ha Hab Hs Hin. unfold pick_recipient, bind, global, minus_singleton.
  rewrite (as_integer_hashable _ _ Hs), Hs, Ha. unfold ret at 1.
  rewrite (difference_other a b s Hab Hin), elements_singleton.
  unfold int_eq. rewrite Hs.
  destruct (Z.eqb_spec (other a b s) s) as [E|_]; [|reflexivity].
  destruct (other_differs a b s Hab Hin E).
Qed.

Lemma notify_run network sender_id msg w :
  notify network sender_id msg w
  = (Returned tt, sent w [sendMessage (globals w) sender_id msg]).
Proof.
  unfold notify, try_except, bind, global, requests_post, ret, pass, sent,
    sendMessage. cbn.
  destruct (network _ _); reflexivity.
Qed.

Lemma dispatch_run network recipient_id sender_id chat_id message_id w :
  let c := relayed (globals w) recipient_id chat_id message_id in
  dispatch network recipient_id sender_id chat_id message_id w
  = (Returned tt,
     sent w (c :: notices (globals w) sender_id (network (outbox w) c))).
Proof.
  intros c. unfold dispatch, try_except, bind, global, requests_post.
  cbn beta zeta.
  fold (relayed (globals w) recipient_id chat_id message_id). fold c.
  destruct (network (outbox w) c) as [resp|] eqn:E.
  - fold (sent w [c]). cbn [notices]. destruct (ok resp); cbn [negb].
    + reflexivity.
    + rewrite notify_run, sent_sent. reflexivity.
  - fold (sent w [c]). rewrite notify_run, sent_sent. reflexivity.
Qed.

Lemma relay_unauthorized network sender_id chat_id message_id w :
  hashable sender_id = true ->
  (forall z, as_integer sender_id = Some z -> z ∉ allowed_ids (globals w)) ->
  relay network sender_id chat_id message_id w
  = (Returned {| status := 200 |},
     sent w (if REPLY_UNAUTHORIZED (globals w)
             then [sendMessage (globals w) sender_id
                     "You are not authorized to use this bot."]
             else [])).
Proof.
  intros Hh Hn. unfold relay, bind, global, not_in, ret. rewrite Hh.
  assert (match as_integer sender_id with
          | Some z => bool_decide (z ∉ allowed_ids (globals w))
          | None => true
          end = true) as ->.
  { destruct (as_integer sender_id) as [z|]; [|reflexivity].
    apply bool_decide_eq_true_2. auto. }
  destruct (REPLY_UNAUTHORIZED (globals w)).
  - rewrite notify_run. reflexivity.
  - rewrite sent_nil. reflexivity.
Qed.

Lemma relay_resolved network s r sender_id chat_id message_id w :
  as_integer sender_id = Some s -> s ∈ allowed_ids (globals w) ->
  pick_recipient sender_id w = (Returned (Some r), w) ->
  let c := relayed (globals w) r chat_id message_id in
  relay network sender_id chat_id message_id w
  = (Returned {| status := 200 |},
     sent w (c :: notices (globals w) sender_id (network (outbox w) c))).
Proof.
  intros Hs Hin Hpick c. unfold relay, bind, global, not_in.
  rewrite (as_integer_hashable _ _ Hs), Hs. unfold ret at 1.
  rewrite bool_decide_eq_false_2 by (intros Hn; apply Hn, Hin).
  rewrite Hpick, dispatch_run. fold c. reflexivity.
Qed.

Lemma relay_authorized network a b s sender_id chat_id message_id w :
  allowed_ids (globals w) = {[ a; b ]} -> a <> b ->
  as_integer sender_id = Some s -> s ∈ ({[ a; b ]} : gset Z) ->
  let c := relayed (globals w) (other a b s) chat_id message_id in
  relay network sender_id chat_id message_id w
  = (Returned {| status := 200 |},
     sent w (c :: notices (globals w) sender_id (network (outbox w) c))).
Proof.
  intros Ha Hab Hs Hin.
  apply (relay_resolved network s); [assumption | rewrite Ha; assumption |].
  apply (pick_recipient_run a b s sender_id w Ha Hab Hs Hin).
Qed.

(** C1. When the two configured identities are distinct and the sender is one
    of them, the recipient the view resolves is the other one: it belongs to
    the allowed set and is not equal to the sender, and on a complete update
    the relayed message is addressed to it. *)
Theorem recipient_is_other_member a b s sender_id w :
  allowed_ids (globals w) = {[ a; b ]} -> a <> b ->
  as_integer sender_id = Some s -> s ∈ allowed_ids (globals w) ->
  exists r,
    pick_recipient sender_id w = (Returned (Some r), w)
    /\ r ∈ allowed_ids (globals w)
    /\ r <> s /\ int_eq r sender_id = false
    /\ (s = a -> r = b) /\ (s = b -> r = a)
    /\ forall network payload chat_id message_id,
         complete payload sender_id chat_id message_id ->
         exists rest,
           outbox (snd (handle network payload w))
           = (outbox w ++ relayed (globals w) r chat_id message_id :: rest)%list.
Proof.
  intros Ha Hab Hs Hin. rewrite Ha in Hin |- *.
  exists (other a b s). repeat split.
  - apply (pick_recipient_run a b s sender_id w Ha Hab Hs Hin).
  - apply other_member.
  - apply (other_differs a b s Hab Hin).
  - unfold int_eq. rewrite Hs. apply Z.eqb_neq, (other_differs a b s Hab Hin).
  - intros ->. unfold other. destruct (decide (a = a)); congruence.
  - intros ->. unfold other. destruct (decide (b = a)); congruence.
  - intros network payload chat_id message_id Hc.
    rewrite (handle_complete _ _ _ _ _ _ Hc).
    rewrite (relay_authorized network a b s _ _ _ w Ha Hab Hs Hin).
    eexists. reflexivity.
Qed.

Lemma recipient_is_other_member_witness :
  exists r,
    pick_recipient (JInt 111) (Sample.fresh Sample.cfg)
    = (Returned (Some r), Sample.fresh Sample.cfg)
    /\ r ∈ allowed_ids Sample.cfg
    /\ r <> 111 /\ int_eq r (JInt 111) = false
    /\ (111 = 111 -> r = 222) /\ (111 = 222 -> r = 111)
    /\ forall network payload chat_id message_id,
         complete payload (JInt 111) chat_id message_id ->
         exists rest,
           outbox (snd (handle network payload (Sample.fresh Sample.cfg)))
           = ([] ++ relayed Sample.cfg r chat_id message_id :: rest)%list.
Proof.
  apply (recipient_is_other_member 111 222 111 (JInt 111)
           (Sample.fresh Sample.cfg)).
  - reflexivity.
  - discriminate.
  - reflexivity.
  - vm_compute. reflexivity.
Defined.

(** C2, as the view implements it. When the allowed set has two distinct
    identities, the view issues for every authorized message one relaying
    call, chosen by [USE_COPY]: [copyMessage] in copy mode, [forwardMessage]
    otherwise, in both modes with [chat_id] the other allowed identity,
    [from_chat_id] the chat of the message and [message_id] its identifier.
    Whatever follows it is at most one [sendMessage] notice to the sender. *)
Theorem dispatch_by_mode network payload sender_id chat_id message_id a b s w :
  complete payload sender_id chat_id message_id ->
  allowed_ids (globals w) = {[ a; b ]} -> a <> b ->
  as_integer sender_id = Some s -> s ∈ allowed_ids (globals w) ->
  exists followup,
    handle network payload w
    = (Returned {| status := 200 |},
       sent w ({| url := API_BASE (globals w) ++ "/"
                         ++ (if USE_COPY (globals w)
                             then "copyMessage" else "forwardMessage");
                  json_arg := [("chat_id", JInt (other a b s));
                               ("from_chat_id", chat_id);
                               ("message_id", message_id)];
                  timeout := 8 |} :: followup))
    /\ (followup = []
        \/ exists msg, followup = [sendMessage (globals w) sender_id msg]).
Proof.
  intros Hc Ha Hab Hs Hin. rewrite Ha in Hin.
  rewrite (handle_complete _ _ _ _ _ _ Hc).
  rewrite (relay_authorized network a b s _ _ _ w Ha Hab Hs Hin).
  eexists. split; [reflexivity|].
  unfold notices. destruct (network _ _) as [resp|]; [destruct (ok resp)|]; eauto.
Qed.

Lemma dispatch_by_mode_witness :
  exists followup,
    handle Sample.accepting (Sample.update (JInt 222) (JInt 222) (JInt 7))
      (Sample.fresh Sample.cfg)
    = (Returned {| status := 200 |},
       sent (Sample.fresh Sample.cfg)
         ({| url := API_BASE Sample.cfg ++ "/"
                    ++ (if USE_COPY Sample.cfg
                        then "copyMessage" else "forwardMessage");
             json_arg := [("chat_id", JInt (other 111 222 222));
                          ("from_chat_id", JInt 222);
                          ("message_id", JInt 7)];
             timeout := 8 |} :: followup))
    /\ (followup = []
        \/ exists msg, followup = [sendMessage Sample.cfg (JInt 222) msg]).
Proof.
  apply (dispatch_by_mode Sample.accepting
           (Sample.update (JInt 222) (JInt 222) (JInt 7))
           (JInt 222) (JInt 222) (JInt 7) 111 222 222
           (Sample.fresh Sample.cfg)).
  - repeat split; reflexivity.
  - reflexivity.
  - discriminate.
  - reflexivity.
  - vm_compute. reflexivity.
Defined.

(** C2 as stated fails: start-up accepts equal identity values and serves
    with the allowed set {5}; a complete update from 5 is authorized, yet the
    guard of line 100 finds no recipient and no relaying call is made. *)
Lemma authorized_single_identity_no_dispatch :
  load_config decimal_int Sample.same_ids = Serving Fixture.lonely
  /\ complete (Sample.update (JInt 5) (JInt 5) (JInt 1))
       (JInt 5) (JInt 5) (JInt 1)
  /\ as_integer (JInt 5) = Some 5
  /\ 5 ∈ allowed_ids Fixture.lonely
  /\ handle Sample.accepting (Sample.update (JInt 5) (JInt 5) (JInt 1))
       (Sample.fresh Fixture.lonely)
     = (Returned {| status := 200 |}, Sample.fresh Fixture.lonely)
  /\ outbox (snd (handle Sample.accepting
                    (Sample.update (JInt 5) (JInt 5) (JInt 1))
                    (Sample.fresh Fixture.lonely))) = [].
Proof.
  split; [reflexivity|]. split; [repeat split; reflexivity|].
  split; [reflexivity|]. split; [vm_compute; reflexivity|].
  split; vm_compute; reflexivity.
Qed.

(** C5. When the provider answers the relaying call of an authorized message
    with a non-success response, the view still returns 200 and makes exactly
    one more call: a [sendMessage] failure notice to the sender.  Nothing is
    assumed about how that notice fares. *)
Theorem failed_dispatch_notifies_sender
    network payload sender_id chat_id message_id s r w resp :
  complete payload sender_id chat_id message_id ->
  as_integer sender_id = Some s -> s ∈ allowed_ids (globals w) ->
  pick_recipient sender_id w = (Returned (Some r), w) ->
  network (outbox w) (relayed (globals w) r chat_id message_id)
  = Answers resp ->
  ok resp = false ->
  handle network payload w
  = (Returned {| status := 200 |},
     sent w [relayed (globals w) r chat_id message_id;
             sendMessage (globals w) sender_id
               "Failed to deliver the message to the other user."]).
Proof.
  intros Hc Hs Hin Hpick Hnet Hok.
  rewrite (handle_complete _ _ _ _ _ _ Hc).
  rewrite (relay_resolved network s r _ _ _ w Hs Hin Hpick).
  rewrite Hnet. cbn [notices]. rewrite Hok. reflexivity.
Qed.

Lemma failed_dispatch_notifies_sender_witness :
  handle Sample.failing (Sample.update (JInt 111) (JInt 111) (JInt 42))
    (Sample.fresh Sample.cfg)
  = (Returned {| status := 200 |},
     sent (Sample.fresh Sample.cfg)
       [relayed Sample.cfg 222 (JInt 111) (JInt 42);
        sendMessage Sample.cfg (JInt 111)
          "Failed to deliver the message to the other user."]).
Proof.
  apply (failed_dispatch_notifies_sender Sample.failing
           (Sample.update (JInt 111) (JInt 111) (JInt 42))
           (JInt 111) (JInt 111) (JInt 42) 111 222
           (Sample.fresh Sample.cfg)
           {| ok := false; status_code := 400; text := "Bad Request" |}).
  - repeat split; reflexivity.
  - reflexivity.
  - vm_compute. reflexivity.
  - reflexivity.
  - reflexivity.
  - reflexivity.
Defined.

(** C4, as the view implements it. On a complete update whose sender
    identity is hashable and equal to no allowed identity the view returns
    200; with [REPLY_UNAUTHORIZED] set it makes exactly one call, a
    [sendMessage] addressed to the sender, and with the toggle off it makes
    none. *)
Theorem unauthorized_sender_reply
    network payload sender_id chat_id message_id w :
  complete payload sender_id chat_id message_id ->
  hashable sender_id = true ->
  (forall z, as_integer sender_id = Some z -> z ∉ allowed_ids (globals w)) ->
  handle network payload w
  = (Returned {| status := 200 |},
     sent w (if REPLY_UNAUTHORIZED (globals w)
             then [sendMessage (globals w) sender_id
                     "You are not authorized to use this bot."]
             else [])).
Proof.
  intros Hc Hh Hn.
  rewrite (handle_complete _ _ _ _ _ _ Hc).
  apply relay_unauthorized; assumption.
Qed.

Lemma unauthorized_sender_reply_witness :
  handle Sample.unreachable (Sample.update (JInt 999) (JInt 999) (JInt 3))
    (Sample.fresh Sample.cfg)
  = (Returned {| status := 200 |},
     sent (Sample.fresh Sample.cfg)
       (if REPLY_UNAUTHORIZED Sample.cfg
        then [sendMessage Sample.cfg (JInt 999)
                "You are not authorized to use this bot."]
        else [])).
Proof.
  apply (unauthorized_sender_reply Sample.unreachable
           (Sample.update (JInt 999) (JInt 999) (JInt 3))
           (JInt 999) (JInt 999) (JInt 3) (Sample.fresh Sample.cfg)).
  - repeat split; reflexivity.
  - reflexivity.
  - intros z Hz. injection Hz as <-. vm_compute. discriminate.
Defined.

(** C4 as stated fails: the sender 999 is not allowed and the reply toggle is
    on, yet the update has no chat and no message identifier, so the guard of
    line 80 answers 200 before the authorization and no call is made. *)
Lemma stranger_without_chat_gets_no_reply :
  path Sample.stranger_without_chat ["message"; "from"; "id"]
  = Some (JInt 999)
  /\ (999 ∉ allowed_ids Sample.cfg)
  /\ REPLY_UNAUTHORIZED Sample.cfg = true
  /\ handle Sample.accepting Sample.stranger_without_chat
       (Sample.fresh Sample.cfg)
     = (Returned {| status := 200 |}, Sample.fresh Sample.cfg)
  /\ outbox (snd (handle Sample.accepting Sample.stranger_without_chat
                    (Sample.fresh Sample.cfg))) = [].
Proof.
  repeat split; try reflexivity.
  vm_compute. discriminate.
Qed.

(** ** Updates of an unexpected shape *)

(** Every run of [relay] returns 200, except that an unhashable sender
    identity raises [TypeError] before any call is made. *)
Lemma relay_outcome network sender_id chat_id message_id w :
  (exists w', relay network sender_id chat_id message_id w
              = (Returned {| status := 200 |}, w'))
  \/ relay network sender_id chat_id message_id w = (Raised TypeError, w).
Proof.
  assert (Hreply : exists w',
    bind (global REPLY_UNAUTHORIZED)
      (fun reply =>
         bind (if reply
               then notify network sender_id
                      "You are not authorized to use this bot."
               else pass)
           (fun _ => ret {| status := 200 |})) w
    = (Returned {| status := 200 |}, w')).
  { unfold bind, global. destruct (REPLY_UNAUTHORIZED (globals w)).
    - rewrite notify_run. eexists. reflexivity.
    - eexists. reflexivity. }
  unfold relay, bind at 1 2, global at 1, not_in.
  destruct (hashable sender_id) eqn:Hh; [left | right; reflexivity].
  unfold ret at 1.
  destruct (as_integer sender_id) as [z|] eqn:Hz; [|exact Hreply].
  destruct (bool_decide (z ∉ allowed_ids (globals w))); [exact Hreply|].
  unfold bind, pick_recipient, bind, global, minus_singleton.
  rewrite Hh, Hz. unfold ret at 1.
  destruct (elements (allowed_ids (globals w) ∖ {[ z ]})) as [|r rest].
  - eexists. reflexivity.
  - destruct (int_eq r sender_id); [eexists; reflexivity|].
    unfold ret at 1. rewrite dispatch_run. eexists. reflexivity.
Qed.

(** X3. After a successful parse the view either returns 200 or lets an
    [AttributeError] or a [TypeError] escape, in which case no call has been
    made. *)
Lemma post_parse_outcome network payload w :
  match handle network payload w with
  | (Returned r, _) => status r = 200
  | (Raised e, w') => (e = AttributeError \/ e = TypeError) /\ w' = w
  end.
Proof.
  unfold handle, webhook_handler. cbn [get_json].
  destruct payload as [| | | | | |p]; try solve [cbn; auto].
  unfold bind at 1, dict_get at 1, ret at 1.
  destruct (negb (truthy _)); [reflexivity|].
  destruct (default JNull (p !! "message")) as [| | | | | |m];
    try solve [cbn; auto].
  unfold bind at 1, dict_get at 1, ret at 1.
  destruct (default (JObj ∅) (m !! "from")) as [| | | | | |f];
    try solve [cbn; auto].
  unfold bind at 1, dict_get at 1, ret at 1.
  unfold bind at 1, dict_get at 1, ret at 1.
  destruct (default (JObj ∅) (m !! "chat")) as [| | | | | |c];
    try solve [cbn; auto].
  unfold bind at 1, dict_get at 1, ret at 1.
  unfold bind at 1, dict_get at 1, ret at 1.
  destruct (_ || _); [reflexivity|].
  destruct (relay_outcome network (default JNull (f !! "id"))
              (default JNull (c !! "id")) (default JNull (m !! "message_id")) w)
    as [[w' H]|H]; rewrite H; auto.
Qed.

(** X10. An update without [message] is acknowledged and ignored. *)
Lemma missing_message_ignored network (p : gmap string json) w :
  p !! "message" = None ->
  handle network (JObj p) w = (Returned {| status := 200 |}, w).
Proof.
  intros Hp. unfold handle, webhook_handler. cbn [get_json].
  rewrite (bind_get_absent _ _ _ _ _ Hp). reflexivity.
Qed.

(** X11. So is an update whose message is a dict with [from] and [chat]
    absent or dicts, when one of the three identifiers is absent or [None]. *)
Lemma missing_identifier_ignored network (p m f c : gmap string json) w :
  p !! "message" = Some (JObj m) ->
  default (JObj ∅) (m !! "from") = JObj f ->
  default (JObj ∅) (m !! "chat") = JObj c ->
  is_None (default JNull (f !! "id"))
  || is_None (default JNull (m !! "message_id"))
  || is_None (default JNull (c !! "id")) = true ->
  handle network (JObj p) w = (Returned {| status := 200 |}, w).
Proof.
  intros Hp Hf Hc Hnone. unfold handle, webhook_handler. cbn [get_json].
  rewrite (bind_get _ _ _ _ _ _ Hp). cbv beta.
  destruct (negb (truthy (JObj m))); [reflexivity|].
  unfold bind at 1, dict_get at 1, ret at 1. rewrite Hf.
  unfold bind at 1, dict_get at 1, ret at 1.
  unfold bind at 1, dict_get at 1, ret at 1. rewrite Hc.
  unfold bind at 1, dict_get at 1, ret at 1.
  unfold bind at 1, dict_get at 1, ret at 1.
  rewrite Hnone. reflexivity.
Qed.

(** C3, at the body [[]]: the body decodes, the view calls [.get] on a list,
    [AttributeError] leaves the view and the caller is answered 500, not
    200. *)
Theorem array_body_escapes network w :
  handle network (JArr []) w = (Raised AttributeError, w)
  /\ http_status (fst (handle network (JArr []) w)) = 500.
Proof. split; reflexivity. Qed.

(** C6, at [{"message": {"from": null, "chat": {"id": 1}, "message_id": 2}}]:
    the message has no sender identity, the view calls [.get] on [None],
    [AttributeError] leaves the view and the caller is answered 500. *)
Theorem null_sender_escapes network w :
  path Sample.null_sender ["message"; "from"; "id"] = None
  /\ handle network Sample.null_sender w = (Raised AttributeError, w)
  /\ http_status (fst (handle network Sample.null_sender w)) = 500.
Proof. repeat split; reflexivity. Qed.

(** ** Start-up *)

(** C8, as the start-up code implements it. The process refuses to start
    exactly when the token or one of the two identity values is unset or
    empty, or one of the identity values is not an integer.  When it starts,
    the allowed set holds the two parsed values, whether or not they
    differ. *)
Theorem load_config_refuses_iff int environ :
  ((exists msg, load_config int environ = SystemExit msg)
   <-> (unset (environ !! "BOT_TOKEN") = true
        \/ unset (environ !! "USER_A_ID") = true
        \/ unset (environ !! "USER_B_ID") = true
        \/ int (default "" (environ !! "USER_A_ID")) = None
        \/ int (default "" (environ !! "USER_B_ID")) = None))
  /\ (forall g, load_config int environ = Serving g ->
        exists a b,
          int (default "" (environ !! "USER_A_ID")) = Some a
          /\ int (default "" (environ !! "USER_B_ID")) = Some b
          /\ allowed_ids g = {[ a; b ]}).
Proof.
  unfold load_config.
  destruct (unset (environ !! "BOT_TOKEN")) eqn:Ht; cbn [orb].
  { split; [split; eauto | discriminate]. }
  destruct (unset (environ !! "USER_A_ID")) eqn:Hua; cbn [orb].
  { split; [split; eauto | discriminate]. }
  destruct (unset (environ !! "USER_B_ID")) eqn:Hub; cbn [orb].
  { split; [split; eauto 6 | discriminate]. }
  destruct (int (default "" (environ !! "USER_A_ID"))) as [a|] eqn:Ha.
  - destruct (int (default "" (environ !! "USER_B_ID"))) as [b|] eqn:Hb.
    + split.
      * split; [intros [msg H]; discriminate|].
        intros [H|[H|[H|[H|H]]]]; discriminate.
      * intros g [= <-]. exists a, b. auto.
    + split; [split; eauto 8 | discriminate].
  - split; [split; eauto 8 | discriminate].
Qed.

Lemma load_config_refuses_iff_witness :
  ((exists msg, load_config decimal_int Sample.same_ids = SystemExit msg)
   <-> (unset (Sample.same_ids !! "BOT_TOKEN") = true
        \/ unset (Sample.same_ids !! "USER_A_ID") = true
        \/ unset (Sample.same_ids !! "USER_B_ID") = true
        \/ decimal_int (default "" (Sample.same_ids !! "USER_A_ID")) = None
        \/ decimal_int (default "" (Sample.same_ids !! "USER_B_ID")) = None))
  /\ (forall g, load_config decimal_int Sample.same_ids = Serving g ->
        exists a b,
          decimal_int (default "" (Sample.same_ids !! "USER_A_ID")) = Some a
          /\ decimal_int (default "" (Sample.same_ids !! "USER_B_ID")) = Some b
          /\ allowed_ids g = {[ a; b ]}).
Proof. apply (load_config_refuses_iff decimal_int Sample.same_ids). Defined.

(** C8 as stated fails: with [USER_A_ID] and [USER_B_ID] both 5 the start-up
    code does not exit; it serves with a one-element allowed set. *)
Lemma equal_identities_start :
  Sample.same_ids !! "USER_A_ID" = Sample.same_ids !! "USER_B_ID"
  /\ load_config decimal_int Sample.same_ids
     = Serving {| BOT_TOKEN := "123:abc";
                  allowed_ids := {[ 5 ]};
                  WEBHOOK_URL := None;
                  USE_COPY := true;
                  REPLY_UNAUTHORIZED := true |}.
Proof. split; reflexivity. Qed.

(** With that configuration a message from the single identity reaches the
    guard of line 100 and is acknowledged without any call. *)
Example single_identity_not_relayed :
  handle Sample.accepting (Sample.update (JInt 5) (JInt 5) (JInt 1))
    (Sample.fresh {| BOT_TOKEN := "123:abc";
                     allowed_ids := {[ 5 ]};
                     WEBHOOK_URL := None;
                     USE_COPY := true;
                     REPLY_UNAUTHORIZED := true |})
  = (Returned {| status := 200 |},
     Sample.fresh {| BOT_TOKEN := "123:abc";
                     allowed_ids := {[ 5 ]};
                     WEBHOOK_URL := None;
                     USE_COPY := true;
                     REPLY_UNAUTHORIZED := true |}).
Proof. vm_compute. reflexivity. Qed.


(** ** Further properties of the view *)

(** The recipient is the first element of the set difference; the comparison
    of line 105 is never true. *)
Lemma pick_recipient_head sender_id w :
  hashable sender_id = true ->
  pick_recipient sender_id w
  = (Returned (head (elements (match as_integer sender_id with
                               | Some z => allowed_ids (globals w) ∖ {[ z ]}
                               | None => allowed_ids (globals w)
                               end))), w).
Proof.
  intros Hh. unfold pick_recipient, bind, global, minus_singleton.
  rewrite Hh. unfold ret at 1.
  destruct (as_integer sender_id) as [z|] eqn:Hz.
  - destruct (elements (allowed_ids (globals w) ∖ {[ z ]})) as [|r rest] eqn:E;
      [reflexivity|].
    assert (Hr : r ∈ allowed_ids (globals w) ∖ {[ z ]}).
    { apply elem_of_elements. rewrite E. left. }
    apply elem_of_difference in Hr as [_ Hr]. rewrite elem_of_singleton in Hr.
    unfold int_eq. rewrite Hz.
    destruct (Z.eqb_spec r z); [contradiction | reflexivity].
  - destruct (elements (allowed_ids (globals w))); [reflexivity|].
    unfold int_eq. rewrite Hz. reflexivity.
Qed.

Lemma pick_recipient_some sender_id s r w :
  as_integer sender_id = Some s ->
  pick_recipient sender_id w = (Returned (Some r), w) ->
  r ∈ allowed_ids (globals w) /\ r <> s.
Proof.
  intros Hs. rewrite (pick_recipient_head _ _ (as_integer_hashable _ _ Hs)), Hs.
  intros [= H].
  destruct (elements (allowed_ids (globals w) ∖ {[ s ]})) as [|x rest] eqn:E;
    [discriminate|].
  injection H as ->.
  assert (Hr : r ∈ allowed_ids (globals w) ∖ {[ s ]}).
  { apply elem_of_elements. rewrite E. left. }
  apply elem_of_difference in Hr as [Hin Hr]. rewrite elem_of_singleton in Hr.
  auto.
Qed.

(** The four ways [relay] can end. *)
Lemma relay_cases network sender_id chat_id message_id w :
  (hashable sender_id = false
   /\ relay network sender_id chat_id message_id w = (Raised TypeError, w))
  \/ (hashable sender_id = true
      /\ (forall z, as_integer sender_id = Some z ->
                    z ∉ allowed_ids (globals w))
      /\ relay network sender_id chat_id message_id w
         = (Returned {| status := 200 |},
            sent w (if REPLY_UNAUTHORIZED (globals w)
                    then [sendMessage (globals w) sender_id
                            "You are not authorized to use this bot."]
                    else [])))
  \/ (exists s, as_integer sender_id = Some s
      /\ s ∈ allowed_ids (globals w)
      /\ pick_recipient sender_id w = (Returned None, w)
      /\ relay network sender_id chat_id message_id w
         = (Returned {| status := 200 |}, w))
  \/ (exists s r, as_integer sender_id = Some s
      /\ s ∈ allowed_ids (globals w)
      /\ pick_recipient sender_id w = (Returned (Some r), w)
      /\ relay network sender_id chat_id message_id w
         = (Returned {| status := 200 |},
            sent w (relayed (globals w) r chat_id message_id
                    :: notices (globals w) sender_id
                         (network (outbox w)
                            (relayed (globals w) r chat_id message_id))))).
Proof.
  destruct (hashable sender_id) eqn:Hh.
  2:{ left. split; [reflexivity|].
      unfold relay, bind, global, not_in. rewrite Hh. reflexivity. }
  right.
  destruct (as_integer sender_id) as [s|] eqn:Hs.
  - destruct (decide (s ∈ allowed_ids (globals w))) as [Hin|Hout].
    + right. pose proof (pick_recipient_head sender_id w Hh) as Hp.
      destruct (head _) as [r|] in Hp.
      * right. exists s, r. repeat split; try assumption.
        apply (relay_resolved network s r _ _ _ w Hs Hin Hp).
      * left. exists s. repeat split; try assumption.
        unfold relay, bind, global, not_in. rewrite Hh, Hs. unfold ret at 1.
        rewrite bool_decide_eq_false_2 by (intros Hn; apply Hn, Hin).
        rewrite Hp. reflexivity.
    + left. split; [reflexivity|]. split.
      * intros z [= <-]. exact Hout.
      * apply relay_unauthorized; [exact Hh|]. rewrite Hs. intros z [= <-]. exact Hout.
  - left. split; [reflexivity|]. split; [discriminate|].
    apply relay_unauthorized; [exact Hh|]. rewrite Hs. discriminate.
Qed.

(** The ways the reading of the identifiers can end. *)
Lemma handle_cases network payload w res :
  handle network payload w = res ->
  (well_shaped payload = true /\ res = (Returned {| status := 200 |}, w))
  \/ (well_shaped payload = false /\ res = (Raised AttributeError, w))
  \/ (well_shaped payload = true
      /\ exists sender_id chat_id message_id,
           complete payload sender_id chat_id message_id
           /\ res = relay network sender_id chat_id message_id w).
Proof.
  unfold handle, webhook_handler, well_shaped. cbn [get_json].
  destruct payload as [| | | | | |p];
    try solve [intros <-; right; left; split; reflexivity].
  unfold bind at 1, dict_get at 1, ret at 1. cbv zeta.
  destruct (truthy (default JNull (p !! "message"))) eqn:Ht; cbn [negb];
    [|intros <-; left; split; reflexivity].
  destruct (p !! "message") as [message|] eqn:Hp; [|discriminate].
  cbn [default from_option id] in Ht |- *.
  destruct message as [| | | | | |m];
    try solve [intros <-; right; left; split; reflexivity].
  unfold bind at 1, dict_get at 1, ret at 1.
  destruct (m !! "from") as [from_user|] eqn:Hf; cbn [default from_option id].
  - destruct from_user as [| | | | | |f];
      try solve [intros <-; right; left; split; reflexivity].
    cbn [is_dict andb].
    unfold bind at 1, dict_get at 1, ret at 1.
    unfold bind at 1, dict_get at 1, ret at 1.
    destruct (m !! "chat") as [chat|] eqn:Hc; cbn [default from_option id].
    + destruct chat as [| | | | | |c];
        try solve [intros <-; right; left; split; reflexivity].
      cbn [is_dict].
      unfold bind at 1, dict_get at 1, ret at 1.
      unfold bind at 1, dict_get at 1, ret at 1.
      destruct (f !! "id") as [sender_id|] eqn:Hi; cbn [default from_option id];
        [|intros <-; left; split; reflexivity].
      destruct (is_None sender_id) eqn:Ns; cbn [orb];
        [intros <-; left; split; reflexivity|].
      destruct (m !! "message_id") as [message_id|] eqn:Hm;
        cbn [default from_option id]; [|intros <-; left; split; reflexivity].
      destruct (is_None message_id) eqn:Nm; cbn [orb];
        [intros <-; left; split; reflexivity|].
      destruct (c !! "id") as [chat_id|] eqn:Hci; cbn [default from_option id];
        [|intros <-; left; split; reflexivity].
      destruct (is_None chat_id) eqn:Nc; [intros <-; left; split; reflexivity|].
      intros <-. right. right. split; [reflexivity|].
      exists sender_id, chat_id, message_id. split; [|reflexivity].
      unfold complete. cbn. rewrite Hp, Hf, Hi, Hc, Hci, Hm. repeat split; assumption.
    + cbn [is_dict].
      unfold bind at 1, dict_get at 1, ret at 1.
      unfold bind at 1, dict_get at 1, ret at 1.
      rewrite lookup_empty. cbn [default from_option id is_None].
      rewrite !orb_true_r. intros <-. left. split; reflexivity.
  - cbn [is_dict andb].
    unfold bind at 1, dict_get at 1, ret at 1.
    rewrite lookup_empty. cbn [default from_option id is_None orb].
    unfold bind at 1, dict_get at 1, ret at 1.
    destruct (default (JObj ∅) (m !! "chat")) as [| | | | | |c];
      try solve [intros <-; right; left; split; reflexivity].
    intros <-. left. split; reflexivity.
Qed.

(** X1. When [requests.post] raises on the relaying call of an authorized
    message, the view returns 200 and makes exactly one more call: a
    [sendMessage] telling the sender of an internal error. *)
Theorem provider_exception_notifies_sender
    network payload sender_id chat_id message_id s r w :
  complete payload sender_id chat_id message_id ->
  as_integer sender_id = Some s -> s ∈ allowed_ids (globals w) ->
  pick_recipient sender_id w = (Returned (Some r), w) ->
  network (outbox w) (relayed (globals w) r chat_id message_id) = Throws ->
  handle network payload w
  = (Returned {| status := 200 |},
     sent w [relayed (globals w) r chat_id message_id;
             sendMessage (globals w) sender_id
               "An internal error occurred while forwarding your message."]).
Proof.
  intros Hc Hs Hin Hpick Hnet.
  rewrite (handle_complete _ _ _ _ _ _ Hc).
  rewrite (relay_resolved network s r _ _ _ w Hs Hin Hpick).
  rewrite Hnet. reflexivity.
Qed.

Lemma provider_exception_notifies_sender_witness :
  handle Sample.unreachable (Sample.update (JInt 111) (JInt 111) (JInt 42))
    (Sample.fresh Sample.cfg)
  = (Returned {| status := 200 |},
     sent (Sample.fresh Sample.cfg)
       [relayed Sample.cfg 222 (JInt 111) (JInt 42);
        sendMessage Sample.cfg (JInt 111)
          "An internal error occurred while forwarding your message."]).
Proof.
  apply (provider_exception_notifies_sender Sample.unreachable
           (Sample.update (JInt 111) (JInt 111) (JInt 42))
           (JInt 111) (JInt 111) (JInt 42) 111 222
           (Sample.fresh Sample.cfg)).
  - repeat split; reflexivity.
  - reflexivity.
  - vm_compute. reflexivity.
  - reflexivity.
  - reflexivity.
Defined.

(** X2. When the provider accepts the relaying call of an authorized
    message, that call is the only one the view makes. *)
Theorem accepted_dispatch_single_call
    network payload sender_id chat_id message_id s r w resp :
  complete payload sender_id chat_id message_id ->
  as_integer sender_id = Some s -> s ∈ allowed_ids (globals w) ->
  pick_recipient sender_id w = (Returned (Some r), w) ->
  network (outbox w) (relayed (globals w) r chat_id message_id)
  = Answers resp ->
  ok resp = true ->
  handle network payload w
  = (Returned {| status := 200 |},
     sent w [relayed (globals w) r chat_id message_id]).
Proof.
  intros Hc Hs Hin Hpick Hnet Hok.
  rewrite (handle_complete _ _ _ _ _ _ Hc).
  rewrite (relay_resolved network s r _ _ _ w Hs Hin Hpick).
  rewrite Hnet. cbn [notices]. rewrite Hok. reflexivity.
Qed.

Lemma accepted_dispatch_single_call_witness :
  handle Sample.accepting (Sample.update (JInt 111) (JInt 111) (JInt 42))
    (Sample.fresh Sample.cfg)
  = (Returned {| status := 200 |},
     sent (Sample.fresh Sample.cfg)
       [relayed Sample.cfg 222 (JInt 111) (JInt 42)]).
Proof.
  apply (accepted_dispatch_single_call Sample.accepting
           (Sample.update (JInt 111) (JInt 111) (JInt 42))
           (JInt 111) (JInt 111) (JInt 42) 111 222
           (Sample.fresh Sample.cfg)
           {| ok := true; status_code := 200; text := "" |}).
  - repeat split; reflexivity.
  - reflexivity.
  - vm_compute. reflexivity.
  - reflexivity.
  - reflexivity.
  - reflexivity.
Defined.

(** X4. Whatever the decoded body and the provider do, the view only appends
    to the outbox, and what it appends is nothing, one notice to the sender
    of a complete update, or one relaying call for a complete update from an
    allowed sender, addressed to an allowed identity other than the sender
    and followed by at most one notice to the sender. *)
Theorem handler_calls_shape network payload w :
  exists cs,
    snd (handle network payload w) = sent w cs
    /\ (cs = []
        \/ (exists sender_id chat_id message_id msg,
              complete payload sender_id chat_id message_id
              /\ cs = [sendMessage (globals w) sender_id msg])
        \/ (exists sender_id chat_id message_id s r,
              complete payload sender_id chat_id message_id
              /\ as_integer sender_id = Some s
              /\ s ∈ allowed_ids (globals w)
              /\ r ∈ allowed_ids (globals w)
              /\ r <> s
              /\ (cs = [relayed (globals w) r chat_id message_id]
                  \/ exists msg,
                       cs = [relayed (globals w) r chat_id message_id;
                             sendMessage (globals w) sender_id msg]))).
Proof.
  destruct (handle_cases network payload w _ eq_refl)
    as [[_ H]|[[_ H]|[_ (sender_id & chat_id & message_id & Hc & H)]]];
    rewrite H; cbn [snd].
  1,2: exists []; split; [symmetry; apply sent_nil | left; reflexivity].
  destruct (relay_cases network sender_id chat_id message_id w)
    as [[_ R]|[(_ & _ & R)|[(s & _ & _ & _ & R)|(s & r & Hs & Hin & Hp & R)]]];
    rewrite R; cbn [snd].
  - exists []. split; [symmetry; apply sent_nil | left; reflexivity].
  - destruct (REPLY_UNAUTHORIZED (globals w)).
    + eexists. split; [reflexivity|]. right. left.
      exists sender_id, chat_id, message_id. eauto.
    + exists []. split; [reflexivity | left; reflexivity].
  - exists []. split; [symmetry; apply sent_nil | left; reflexivity].
  - destruct (pick_recipient_some _ _ _ _ Hs Hp) as [Hr Hne].
    eexists. split; [reflexivity|]. right. right.
    exists sender_id, chat_id, message_id, s, r.
    split; [exact Hc|]. split; [exact Hs|]. split; [exact Hin|].
    split; [exact Hr|]. split; [exact Hne|].
    unfold notices.
    destruct (network _ _) as [resp|]; [destruct (ok resp)|]; eauto.
Qed.

(** X5. An [AttributeError] leaves the view exactly when the decoded body is
    not well shaped: the payload, a truthy [message], or a [from] or [chat]
    that is present is not a dict. *)
Theorem attribute_error_iff network payload w :
  fst (handle network payload w) = Raised AttributeError
  <-> well_shaped payload = false.
Proof.
  destruct (handle_cases network payload w _ eq_refl)
    as [[Hw H]|[[Hw H]|[Hw (sender_id & chat_id & message_id & Hc & H)]]];
    rewrite H, Hw; cbn [fst].
  - split; discriminate.
  - split; reflexivity.
  - destruct (relay_cases network sender_id chat_id message_id w)
      as [[_ R]|[(_ & _ & R)|[(s & _ & _ & _ & R)|(s & r & _ & _ & _ & R)]]];
      rewrite R; cbn [fst]; split; discriminate.
Qed.

(** X6. A [TypeError] leaves the view exactly when the update is complete and
    its sender identity is a list or a dict; no call has been made then. *)
Theorem type_error_iff network payload w :
  (fst (handle network payload w) = Raised TypeError
   <-> exists sender_id chat_id message_id,
         complete payload sender_id chat_id message_id
         /\ hashable sender_id = false)
  /\ (fst (handle network payload w) = Raised TypeError ->
      snd (handle network payload w) = w).
Proof.
  assert (Hraise : forall sender_id chat_id message_id,
            hashable sender_id = false ->
            relay network sender_id chat_id message_id w
            = (Raised TypeError, w)).
  { intros sender_id chat_id message_id Hh.
    unfold relay, bind, global, not_in. rewrite Hh. reflexivity. }
  split; [split|].
  - destruct (handle_cases network payload w _ eq_refl)
      as [[Hw H]|[[Hw H]|[Hw (sender_id & chat_id & message_id & Hc & H)]]];
      rewrite H; cbn [fst]; try discriminate.
    destruct (relay_cases network sender_id chat_id message_id w)
      as [[Hh R]|[(_ & _ & R)|[(s & _ & _ & _ & R)|(s & r & _ & _ & _ & R)]]];
      rewrite R; cbn [fst]; try discriminate.
    intros _. exists sender_id, chat_id, message_id. auto.
  - intros (sender_id & chat_id & message_id & Hc & Hh).
    rewrite (handle_complete _ _ _ _ _ _ Hc), (Hraise _ _ _ Hh). reflexivity.
  - destruct (handle_cases network payload w _ eq_refl)
      as [[Hw H]|[[Hw H]|[Hw (sender_id & chat_id & message_id & Hc & H)]]];
      rewrite H; cbn [fst snd]; try discriminate.
    destruct (relay_cases network sender_id chat_id message_id w)
      as [[Hh R]|[(_ & _ & R)|[(s & _ & _ & _ & R)|(s & r & _ & _ & _ & R)]]];
      rewrite R; cbn [fst snd]; try discriminate.
    reflexivity.
Qed.

Lemma type_error_iff_witness :
  (fst (handle Sample.accepting
          (Sample.update (JArr [JInt 1]) (JInt 1) (JInt 2))
          (Sample.fresh Sample.cfg)) = Raised TypeError
   <-> exists sender_id chat_id message_id,
         complete (Sample.update (JArr [JInt 1]) (JInt 1) (JInt 2))
           sender_id chat_id message_id
         /\ hashable sender_id = false)
  /\ (fst (handle Sample.accepting
             (Sample.update (JArr [JInt 1]) (JInt 1) (JInt 2))
             (Sample.fresh Sample.cfg)) = Raised TypeError ->
      snd (handle Sample.accepting
             (Sample.update (JArr [JInt 1]) (JInt 1) (JInt 2))
             (Sample.fresh Sample.cfg)) = Sample.fresh Sample.cfg).
Proof.
  apply (type_error_iff Sample.accepting
           (Sample.update (JArr [JInt 1]) (JInt 1) (JInt 2))
           (Sample.fresh Sample.cfg)).
Defined.

(** X7. Whatever the configuration, a recipient the view picks is an allowed
    identity and is not equal to the sender. *)
Theorem picked_recipient_allowed sender_id r w :
  pick_recipient sender_id w = (Returned (Some r), w) ->
  r ∈ allowed_ids (globals w) /\ int_eq r sender_id = false.
Proof.
  intros H.
  assert (Hh : hashable sender_id = true).
  { destruct (hashable sender_id) eqn:Hh; [reflexivity|].
    unfold pick_recipient, bind, global, minus_singleton in H.
    rewrite Hh in H. discriminate. }
  unfold int_eq. destruct (as_integer sender_id) as [s|] eqn:Hs.
  - destruct (pick_recipient_some _ _ _ _ Hs H) as [Hin Hne].
    split; [exact Hin | apply Z.eqb_neq, Hne].
  - split; [|reflexivity].
    rewrite (pick_recipient_head _ _ Hh), Hs in H. injection H as H.
    destruct (elements (allowed_ids (globals w))) as [|x rest] eqn:E;
      [discriminate|].
    injection H as ->. apply elem_of_elements. rewrite E. left.
Qed.

Lemma picked_recipient_allowed_witness :
  222 ∈ allowed_ids (globals (Sample.fresh Sample.cfg))
  /\ int_eq 222 (JFloat (S754_finite false 111 0)) = false.
Proof.
  apply (picked_recipient_allowed (JFloat (S754_finite false 111 0)) 222
           (Sample.fresh Sample.cfg)).
  reflexivity.
Defined.

(** X8. For a hashable sender the view finds no recipient exactly when every
    allowed identity is equal to the sender: the guard of line 100 is the only
    one that can stop the relay, the comparison of line 105 never does. *)
Theorem no_recipient_iff sender_id w :
  hashable sender_id = true ->
  pick_recipient sender_id w = (Returned None, w)
  <-> forall x, x ∈ allowed_ids (globals w) -> as_integer sender_id = Some x.
Proof.
  intros Hh. rewrite (pick_recipient_head _ _ Hh).
  destruct (as_integer sender_id) as [s|] eqn:Hs.
  - destruct (elements (allowed_ids (globals w) ∖ {[ s ]})) as [|r rest] eqn:E;
      cbn [head].
    + split; [intros _ x Hx | reflexivity].
      apply elements_empty_inv in E. apply leibniz_equiv in E.
      destruct (decide (x = s)) as [->|Hne]; [reflexivity|].
      assert (x ∈ allowed_ids (globals w) ∖ {[ s ]}) as Hd
        by (apply elem_of_difference; rewrite elem_of_singleton; auto).
      rewrite E in Hd. apply elem_of_empty in Hd. destruct Hd.
    + split; [discriminate|]. intros Hall.
      assert (Hr : r ∈ allowed_ids (globals w) ∖ {[ s ]}).
      { apply elem_of_elements. rewrite E. left. }
      apply elem_of_difference in Hr as [Hin Hr].
      rewrite elem_of_singleton in Hr.
      specialize (Hall r Hin). congruence.
  - destruct (elements (allowed_ids (globals w))) as [|r rest] eqn:E;
      cbn [head].
    + split; [intros _ x Hx | reflexivity].
      apply elements_empty_inv in E. apply leibniz_equiv in E.
      rewrite E in Hx. apply elem_of_empty in Hx. destruct Hx.
    + split; [discriminate|]. intros Hall.
      assert (Hr : r ∈ allowed_ids (globals w)).
      { apply elem_of_elements. rewrite E. left. }
      specialize (Hall r Hr). discriminate.
Qed.

Lemma no_recipient_iff_witness :
  pick_recipient (JInt 5) (Sample.fresh Fixture.lonely)
  = (Returned None, Sample.fresh Fixture.lonely)
  <-> forall x, x ∈ allowed_ids (globals (Sample.fresh Fixture.lonely)) ->
                as_integer (JInt 5) = Some x.
Proof.
  apply (no_recipient_iff (JInt 5) (Sample.fresh Fixture.lonely)).
  reflexivity.
Defined.

(** X9. When the allowed set has a single member, a complete update from
    that identity is acknowledged and no call is made. *)
Theorem single_identity_ignored
    network payload sender_id chat_id message_id a w :
  allowed_ids (globals w) = {[ a ]} ->
  complete payload sender_id chat_id message_id ->
  as_integer sender_id = Some a ->
  handle network payload w = (Returned {| status := 200 |}, w).
Proof.
  intros Ha Hc Hs.
  rewrite (handle_complete _ _ _ _ _ _ Hc).
  pose proof (as_integer_hashable _ _ Hs) as Hh.
  unfold relay, bind, global, not_in. rewrite Hh, Hs, Ha. unfold ret at 1.
  rewrite bool_decide_eq_false_2
    by (intros Hn; apply Hn, elem_of_singleton; reflexivity).
  rewrite (pick_recipient_head _ _ Hh), Hs, Ha.
  replace (({[ a ]} : gset Z) ∖ {[ a ]}) with (∅ : gset Z).
  - rewrite elements_empty. reflexivity.
  - apply set_eq. intros x.
    rewrite elem_of_difference, elem_of_singleton. split.
    + intros Hx. apply elem_of_empty in Hx. destruct Hx.
    + intros [H1 H2]. contradiction.
Qed.

Lemma single_identity_ignored_witness :
  handle Sample.accepting (Sample.update (JInt 5) (JInt 5) (JInt 1))
    (Sample.fresh Fixture.lonely)
  = (Returned {| status := 200 |}, Sample.fresh Fixture.lonely).
Proof.
  apply (single_identity_ignored Sample.accepting
           (Sample.update (JInt 5) (JInt 5) (JInt 1))
           (JInt 5) (JInt 5) (JInt 1) 5 (Sample.fresh Fixture.lonely)).
  - reflexivity.
  - repeat split; reflexivity.
  - reflexivity.
Defined.

Lemma missing_message_ignored_witness :
  handle Sample.accepting (JObj {[ "update_id" := JInt 7 ]})
    (Sample.fresh Sample.cfg)
  = (Returned {| status := 200 |}, Sample.fresh Sample.cfg).
Proof.
  apply (missing_message_ignored Sample.accepting {[ "update_id" := JInt 7 ]}).
  reflexivity.
Defined.

Lemma missing_identifier_ignored_witness :
  handle Sample.accepting
    (JObj {[ "message" :=
       JObj (<[ "chat" := JObj {[ "id" := JInt 1 ]} ]>
             {[ "message_id" := JInt 2 ]}) ]})
    (Sample.fresh Sample.cfg)
  = (Returned {| status := 200 |}, Sample.fresh Sample.cfg).
Proof.
  apply (missing_identifier_ignored Sample.accepting
           {[ "message" :=
              JObj (<[ "chat" := JObj {[ "id" := JInt 1 ]} ]>
                    {[ "message_id" := JInt 2 ]}) ]}
           (<[ "chat" := JObj {[ "id" := JInt 1 ]} ]>
            {[ "message_id" := JInt 2 ]})
           ∅ {[ "id" := JInt 1 ]}); reflexivity.
Defined.

(** ** Webhook registration and the entry point *)

Lemma set_webhook_run network w :
  set_webhook network w = (Returned tt, sent w (webhook_calls (globals w))).
Proof.
  unfold set_webhook, webhook_calls, bind at 1, global at 1, unset.
  destruct (WEBHOOK_URL (globals w)) as [target|] eqn:Hu.
  - destruct (String.eqb target "").
    + rewrite sent_nil. reflexivity.
    + unfold try_except, bind, global, requests_post. rewrite Hu.
      cbn [default from_option id]. fold (setWebhook (globals w) target).
      destruct (network _ _) as [resp|]; [destruct (ok resp)|]; reflexivity.
  - rewrite sent_nil. reflexivity.
Qed.

(** X12. [set_webhook] never raises and never touches the globals: it makes
    no call when [WEBHOOK_URL] is unset or empty, and otherwise exactly one
    [setWebhook] call carrying that URL, whatever the provider does with
    it. *)
Theorem set_webhook_calls network w :
  (unset (WEBHOOK_URL (globals w)) = true ->
   set_webhook network w = (Returned tt, w))
  /\ (forall target,
        WEBHOOK_URL (globals w) = Some target -> target <> "" ->
        set_webhook network w
        = (Returned tt,
           sent w [ {| url := API_BASE (globals w) ++ "/setWebhook";
                       json_arg := [("url", JStr target)];
                       timeout := 8 |} ])).
Proof.
  rewrite set_webhook_run. unfold webhook_calls, unset. split.
  - destruct (WEBHOOK_URL (globals w)) as [target|].
    + intros ->. rewrite sent_nil. reflexivity.
    + intros _. rewrite sent_nil. reflexivity.
  - intros target -> Hne.
    destruct (String.eqb_spec target ""); [contradiction | reflexivity].
Qed.

Lemma set_webhook_calls_witness :
  (unset (WEBHOOK_URL (globals (Sample.fresh Fixture.served))) = true ->
   set_webhook Sample.unreachable (Sample.fresh Fixture.served)
   = (Returned tt, Sample.fresh Fixture.served))
  /\ (forall target,
        WEBHOOK_URL (globals (Sample.fresh Fixture.served)) = Some target ->
        target <> "" ->
        set_webhook Sample.unreachable (Sample.fresh Fixture.served)
        = (Returned tt,
           sent (Sample.fresh Fixture.served)
             [ {| url := API_BASE (globals (Sample.fresh Fixture.served))
                         ++ "/setWebhook";
                  json_arg := [("url", JStr target)];
                  timeout := 8 |} ])).
Proof.
  apply (set_webhook_calls Sample.unreachable (Sample.fresh Fixture.served)).
Defined.

(** X13. Given that [int] reads the literal 8000 as the number 8000, the port
    handed to [app.run] is 8000 when [PORT] is unset and [int] of its value
    otherwise ([None] when that raises), whatever became of the webhook
    registration; and the calls of the registration have been made in every
    case, also when [PORT] is not an integer: it is read last. *)
Theorem main_outcome int network environ w :
  int "8000" = Some 8000 ->
  fst (main int network environ w)
  = Returned (match environ !! "PORT" with
              | Some value => int value
              | None => Some 8000
              end)
  /\ snd (main int network environ w) = sent w (webhook_calls (globals w)).
Proof.
  intros Hdefault.
  assert (Hmain : main int network environ w
                  = (Returned (int (default "8000" (environ !! "PORT"))),
                     sent w (webhook_calls (globals w)))).
  { unfold main, bind at 1, global at 1, bind.
    destruct (negb (unset (WEBHOOK_URL (globals w)))) eqn:Hu.
    - rewrite set_webhook_run. reflexivity.
    - unfold pass, ret, webhook_calls.
      destruct (WEBHOOK_URL (globals w)) as [target|]; cbn [unset negb] in Hu.
      + apply negb_false_iff in Hu. rewrite Hu, sent_nil. reflexivity.
      + rewrite sent_nil. reflexivity. }
  rewrite Hmain. cbn [fst snd]. split; [|reflexivity].
  destruct (environ !! "PORT"); cbn [default from_option id];
    [reflexivity | rewrite Hdefault; reflexivity].
Qed.

(** With [PORT=x] the script registers the webhook and then stops. *)
Lemma main_outcome_witness :
  fst (main decimal_int Sample.unreachable Fixture.env
         (Sample.fresh Fixture.served))
  = Returned (match Fixture.env !! "PORT" with
              | Some value => decimal_int value
              | None => Some 8000
              end)
  /\ snd (main decimal_int Sample.unreachable Fixture.env
            (Sample.fresh Fixture.served))
     = sent (Sample.fresh Fixture.served)
         (webhook_calls (globals (Sample.fresh Fixture.served))).
Proof.
  apply (main_outcome decimal_int Sample.unreachable Fixture.env
           (Sample.fresh Fixture.served)).
  reflexivity.
Defined.

(** Without [PORT] and without [WEBHOOK_URL] the script makes no call and
    listens on 8000; with [PORT=x] above it has made the registration call
    and has no port. *)
Example main_default_port :
  main decimal_int Sample.unreachable Sample.same_ids
    (Sample.fresh Fixture.lonely)
  = (Returned (Some 8000), Sample.fresh Fixture.lonely)
  /\ main decimal_int Sample.unreachable Fixture.env
       (Sample.fresh Fixture.served)
     = (Returned None,
        sent (Sample.fresh Fixture.served)
          [setWebhook Fixture.served "https://relay.example/123:abc"]).
Proof. split; vm_compute; reflexivity. Qed.

(** ** Start-up, continued *)

Lemma load_config_serving int environ g :
  load_config int environ = Serving g ->
  exists a b,
    unset (environ !! "BOT_TOKEN") = false
    /\ int (default "" (environ !! "USER_A_ID")) = Some a
    /\ int (default "" (environ !! "USER_B_ID")) = Some b
    /\ g = {| BOT_TOKEN := default "" (environ !! "BOT_TOKEN");
              allowed_ids := {[ a; b ]};
              WEBHOOK_URL := environ !! "WEBHOOK_URL";
              USE_COPY := flag environ "USE_COPY";
              REPLY_UNAUTHORIZED := flag environ "REPLY_UNAUTHORIZED" |}.
Proof.
  unfold load_config.
  destruct (unset (environ !! "BOT_TOKEN")); [discriminate|].
  destruct (unset (environ !! "USER_A_ID")); [discriminate|].
  destruct (unset (environ !! "USER_B_ID")); [discriminate|]. cbn [orb].
  destruct (int (default "" (environ !! "USER_A_ID"))) as [a|]; [|discriminate].
  destruct (int (default "" (environ !! "USER_B_ID"))) as [b|]; [|discriminate].
  intros [= <-]. exists a, b. auto.
Qed.

Lemma flag_false environ key :
  flag environ key = false <-> environ !! key = Some "0".
Proof.
  unfold flag. rewrite negb_false_iff, String.eqb_eq.
  destruct (environ !! key) as [v|]; cbn [default from_option id].
  - split; congruence.
  - split; discriminate.
Qed.

(** X14. A configuration that is served has the non-empty token of the
    environment and an allowed set of one or two identities. *)
Theorem served_config_invariant int environ g :
  load_config int environ = Serving g ->
  environ !! "BOT_TOKEN" = Some (BOT_TOKEN g)
  /\ BOT_TOKEN g <> ""
  /\ (1 <= size (allowed_ids g) <= 2)%nat.
Proof.
  intros H. destruct (load_config_serving _ _ _ H) as (a & b & Ht & _ & _ & ->).
  cbn [BOT_TOKEN allowed_ids].
  destruct (environ !! "BOT_TOKEN") as [tok|]; [|discriminate].
  cbn [unset default from_option id] in *.
  split; [reflexivity|]. split.
  - intros ->. discriminate.
  - destruct (decide (a = b)) as [->|Hab].
    + rewrite (union_idemp_L ({[ b ]} : gset Z)), size_singleton. lia.
    + rewrite size_union by (apply disjoint_singleton_l;
                             rewrite elem_of_singleton; exact Hab).
      rewrite !size_singleton. lia.
Qed.

Lemma served_config_invariant_witness :
  Fixture.env !! "BOT_TOKEN" = Some (BOT_TOKEN Fixture.served)
  /\ BOT_TOKEN Fixture.served <> ""
  /\ (1 <= size (allowed_ids Fixture.served) <= 2)%nat.
Proof.
  apply (served_config_invariant decimal_int Fixture.env Fixture.served).
  reflexivity.
Defined.

(** X15. Each mode toggle of a served configuration is off exactly when its
    environment variable is the one-character string 0: unset, empty and any
    other value leave it on. *)
Theorem toggles_off_only_at_zero int environ g :
  load_config int environ = Serving g ->
  (USE_COPY g = false <-> environ !! "USE_COPY" = Some "0")
  /\ (REPLY_UNAUTHORIZED g = false
      <-> environ !! "REPLY_UNAUTHORIZED" = Some "0").
Proof.
  intros H. destruct (load_config_serving _ _ _ H) as (a & b & _ & _ & _ & ->).
  cbn [USE_COPY REPLY_UNAUTHORIZED]. split; apply flag_false.
Qed.

Lemma toggles_off_only_at_zero_witness :
  (USE_COPY Fixture.served = false <-> Fixture.env !! "USE_COPY" = Some "0")
  /\ (REPLY_UNAUTHORIZED Fixture.served = false
      <-> Fixture.env !! "REPLY_UNAUTHORIZED" = Some "0").
Proof.
  apply (toggles_off_only_at_zero decimal_int Fixture.env Fixture.served).
  reflexivity.
Defined.

(** X16. The two exit messages tell the causes apart, and the check for
    missing values comes first: the integer message appears only when all
    three values are set and one identity is not an integer. *)
Theorem exit_messages int environ :
  (load_config int environ
   = SystemExit
       "Missing required environment variables (BOT_TOKEN, USER_A_ID, USER_B_ID)."
   <-> unset (environ !! "BOT_TOKEN") = true
       \/ unset (environ !! "USER_A_ID") = true
       \/ unset (environ !! "USER_B_ID") = true)
  /\ (load_config int environ = SystemExit "USER IDs must be integers."
      <-> unset (environ !! "BOT_TOKEN") = false
          /\ unset (environ !! "USER_A_ID") = false
          /\ unset (environ !! "USER_B_ID") = false
          /\ (int (default "" (environ !! "USER_A_ID")) = None
              \/ int (default "" (environ !! "USER_B_ID")) = None)).
Proof.
  unfold load_config.
  destruct (unset (environ !! "BOT_TOKEN")); cbn [orb].
  { split; split; auto; try discriminate. intros (H & _); discriminate. }
  destruct (unset (environ !! "USER_A_ID")); cbn [orb].
  { split; split; auto; try discriminate. intros (_ & H & _); discriminate. }
  destruct (unset (environ !! "USER_B_ID")); cbn [orb].
  { split; split; auto; try discriminate. intros (_ & _ & H & _); discriminate. }
  destruct (int (default "" (environ !! "USER_A_ID"))) as [a|];
    [destruct (int (default "" (environ !! "USER_B_ID"))) as [b|]|].
  - split; split; try discriminate.
    + intros [H|[H|H]]; discriminate.
    + intros (_ & _ & _ & [H|H]); discriminate.
  - split; split; auto; try discriminate. intros [H|[H|H]]; discriminate.
  - split; split; auto; try discriminate. intros [H|[H|H]]; discriminate.
Qed.

(** X17. Start-up and view together: when the two configured identities
    differ, a complete update from either of them is relayed to the other
    one, by the method the configuration selects, and answered with 200. *)
Theorem configured_pair_relays_both_ways
    int network environ g a b payload sender_id chat_id message_id w :
  load_config int environ = Serving g ->
  int (default "" (environ !! "USER_A_ID")) = Some a ->
  int (default "" (environ !! "USER_B_ID")) = Some b ->
  a <> b ->
  globals w = g ->
  complete payload sender_id chat_id message_id ->
  (as_integer sender_id = Some a ->
   exists followup,
     handle network payload w
     = (Returned {| status := 200 |},
        sent w (relayed g b chat_id message_id :: followup)))
  /\ (as_integer sender_id = Some b ->
      exists followup,
        handle network payload w
        = (Returned {| status := 200 |},
           sent w (relayed g a chat_id message_id :: followup))).
Proof.
  intros H Ha Hb Hab Hg Hc.
  destruct (load_config_serving _ _ _ H) as (a' & b' & _ & Ha' & Hb' & Eg).
  rewrite Ha in Ha'. rewrite Hb in Hb'.
  injection Ha' as <-. injection Hb' as <-.
  assert (Hal : allowed_ids (globals w) = {[ a; b ]})
    by (rewrite Hg, Eg; reflexivity).
  rewrite (handle_complete _ _ _ _ _ _ Hc).
  split; intros Hs.
  - rewrite (relay_authorized network a b a _ _ _ w Hal Hab Hs)
      by (apply elem_of_union_l, elem_of_singleton; reflexivity).
    unfold other. rewrite decide_True by reflexivity. rewrite Hg.
    eexists. reflexivity.
  - rewrite (relay_authorized network a b b _ _ _ w Hal Hab Hs)
      by (apply elem_of_union_r, elem_of_singleton; reflexivity).
    unfold other. rewrite decide_False by congruence. rewrite Hg.
    eexists. reflexivity.
Qed.

Lemma configured_pair_relays_both_ways_witness :
  (as_integer (JInt 222) = Some 111 ->
   exists followup,
     handle Sample.rejecting (Sample.update (JInt 222) (JInt 222) (JInt 9))
       (Sample.fresh Fixture.served)
     = (Returned {| status := 200 |},
        sent (Sample.fresh Fixture.served)
          (relayed Fixture.served 222 (JInt 222) (JInt 9) :: followup)))
  /\ (as_integer (JInt 222) = Some 222 ->
      exists followup,
        handle Sample.rejecting (Sample.update (JInt 222) (JInt 222) (JInt 9))
          (Sample.fresh Fixture.served)
        = (Returned {| status := 200 |},
           sent (Sample.fresh Fixture.served)
             (relayed Fixture.served 111 (JInt 222) (JInt 9) :: followup))).
Proof.
  apply (configured_pair_relays_both_ways decimal_int Sample.rejecting
           Fixture.env Fixture.served 111 222
           (Sample.update (JInt 222) (JInt 222) (JInt 9))
           (JInt 222) (JInt 222) (JInt 9) (Sample.fresh Fixture.served)).
  - reflexivity.
  - reflexivity.
  - reflexivity.
  - discriminate.
  - reflexivity.
  - repeat split; reflexivity.
Defined.

(** X18. The two identity variables are interchangeable: swapping the values
    of [USER_A_ID] and [USER_B_ID] changes neither whether the process starts
    nor the configuration it serves. *)
Theorem identities_interchangeable int (environ swapped : gmap string string) :
  (forall key, key <> "USER_A_ID" -> key <> "USER_B_ID" ->
               swapped !! key = environ !! key) ->
  swapped !! "USER_A_ID" = environ !! "USER_B_ID" ->
  swapped !! "USER_B_ID" = environ !! "USER_A_ID" ->
  load_config int swapped = load_config int environ.
Proof.
  intros Hrest Ha Hb. unfold load_config, flag.
  rewrite Ha, Hb, !Hrest by discriminate.
  destruct (unset (environ !! "BOT_TOKEN")); [reflexivity|]. cbn [orb].
  destruct (unset (environ !! "USER_A_ID")), (unset (environ !! "USER_B_ID"));
    try reflexivity. cbn [orb].
  destruct (int (default "" (environ !! "USER_A_ID"))) as [a|],
           (int (default "" (environ !! "USER_B_ID"))) as [b|];
    try reflexivity.
  rewrite (union_comm_L ({[ b ]} : gset Z) {[ a ]}). reflexivity.
Qed.

Lemma identities_interchangeable_witness :
  load_config decimal_int
    (<[ "USER_A_ID" := "222" ]> (<[ "USER_B_ID" := "111" ]> Fixture.env))
  = load_config decimal_int Fixture.env.
Proof.
  apply (identities_interchangeable decimal_int Fixture.env
           (<[ "USER_A_ID" := "222" ]> (<[ "USER_B_ID" := "111" ]> Fixture.env))).
  - intros key Hka Hkb. rewrite !lookup_insert_ne by congruence. reflexivity.
  - reflexivity.
  - reflexivity.
Defined.
